(** * build_assimp.py: the build-script patcher of AssetImportKit

    A shallow embedding of [Dependencies/build_assimp.py] and the proofs of
    its specification.  The script reads [port/iOS/build.sh] of the assimp
    checkout, replaces every line that starts with one of two flag names by a
    fixed assignment, writes the result next to the original, runs it with
    [sh] and removes it again.

    Text is modelled as [string], a character being a byte of the UTF-8
    form of the text (a prefix of code points is a prefix of bytes and the
    other way round, and line feed and carriage return are single bytes);
    the file system as a finite map from path spellings to file contents
    together with the set of existing directories; the script itself as a
    computation in a small state-and-exception monad over that world.  The
    shell is an external collaborator: every definition and theorem that
    involves it takes the way programs are run as an argument. *)

From Stdlib Require Import Ascii String ZArith.
From stdpp Require Import base option list gmap strings.

(** String concatenation is written [+:+] (Python's [+] on [str]); [++] is
    list concatenation. *)

(** ** Python strings *)

(** The two characters the script writes as escapes, the double quote and
    the line feed; [CR] is the carriage return that text-mode reading folds
    into a line feed; [SEP] is the path separator of posixpath. *)
Definition DQUOTE : ascii := "034"%char.
Definition LF : ascii := "010"%char.
Definition CR : ascii := "013"%char.
Definition SEP : ascii := "/"%char.

(** [str.startswith]: [startswith line left] is Python's
    [line.startswith(left)]. *)
Fixpoint startswith (line left : string) {struct left} : bool :=
  match left with
  | EmptyString => true
  | String c left' =>
      match line with
      | EmptyString => false
      | String d line' => if Ascii.eqb d c then startswith line' left' else false
      end
  end.

(** [str.endswith] for a single character, as used by [posixpath.join]. *)
Fixpoint endswith_char (s : string) (c : ascii) : bool :=
  match s with
  | EmptyString => false
  | String d EmptyString => Ascii.eqb d c
  | String _ s' => endswith_char s' c
  end.

(** Does the character occur in the string ([c in s])? *)
Fixpoint contains (s : string) (c : ascii) : bool :=
  match s with
  | EmptyString => false
  | String d s' => if Ascii.eqb d c then true else contains s' c
  end.

(** The mathematical reading of a prefix test: the line is the prefix
    followed by something. *)
Definition StartsWith (line left : string) : Prop :=
  exists rest, line = left +:+ rest.

(** [str.rstrip(c)] for a single character. *)
Fixpoint rstrip (s : string) (c : ascii) : string :=
  match s with
  | EmptyString => EmptyString
  | String d s' =>
      match rstrip s' c with
      | EmptyString => if Ascii.eqb d c then EmptyString else String d EmptyString
      | r => String d r
      end
  end.

(** Is the string made of the character [c] only (Python compares it with
    [c * len(s)])? *)
Fixpoint all_char (s : string) (c : ascii) : bool :=
  match s with
  | EmptyString => true
  | String d s' => Ascii.eqb d c && all_char s' c
  end.

(** [''.join(lines)], what [writelines] sends to the file. *)
Fixpoint concat_lines (lines : list string) : string :=
  match lines with
  | [] => EmptyString
  | l :: ls => l +:+ concat_lines ls
  end.

(** ** Text files *)

(** Reading in text mode (Python 3, [newline=None]): a carriage return, with
    or without a line feed after it, reaches the program as one line feed. *)
Fixpoint universal_newlines (s : string) : string :=
  match s with
  | EmptyString => EmptyString
  | String c s' =>
      if Ascii.eqb c CR then
        match s' with
        | EmptyString => String LF EmptyString
        | String d s'' =>
            if Ascii.eqb d LF then String LF (universal_newlines s'')
            else String LF (universal_newlines s')
        end
      else String c (universal_newlines s')
  end.

(** Iterating a text file yields its lines, each with its line feed; only the
    last one may lack it. *)
Fixpoint file_lines (s : string) : list string :=
  match s with
  | EmptyString => []
  | String c s' =>
      if Ascii.eqb c LF then String c EmptyString :: file_lines s'
      else match file_lines s' with
           | [] => [String c EmptyString]
           | l :: ls => String c l :: ls
           end
  end.

Definition read_lines (content : string) : list string :=
  file_lines (universal_newlines content).

(** ** posixpath *)

Module posixpath.

(** [join(a, b)]: [b] if it is absolute, else [a] and [b] with exactly one
    separator put between them when [a] is not empty and has none at its
    end. *)
Definition join (a b : string) : string :=
  if startswith b (String SEP EmptyString) then b
  else if String.eqb a EmptyString || endswith_char a SEP then a +:+ b
  else a +:+ String SEP EmptyString +:+ b.

(** [p[:i]] and [p[i:]] for [i = p.rfind('/') + 1]. *)
Fixpoint head (p : string) : string :=
  match p with
  | EmptyString => EmptyString
  | String c p' =>
      if contains p' SEP then String c (head p')
      else if Ascii.eqb c SEP then String c EmptyString
      else EmptyString
  end.

Fixpoint basename (p : string) : string :=
  match p with
  | EmptyString => EmptyString
  | String c p' =>
      if contains p' SEP then basename p'
      else if Ascii.eqb c SEP then p'
      else p
  end.

(** [dirname(p)]: the head without its trailing separators, unless it
    consists of separators only. *)
Definition dirname (p : string) : string :=
  let h := head p in
  if all_char h SEP then h else rstrip h SEP.

End posixpath.

(** ** The world the script runs in *)

(** Files are keyed by the spelling of their path as the process resolves it
    ([posixpath.join] of the working directory and the path given); [dirs]
    are the directories that exist.  Two spellings of one file are two keys:
    the script always reaches a file through the same spelling (see
    [resolve_after_chdir]).  The working directory [cwd] is spelled the same
    way: empty for the directory the process starts in, or any path to join
    relative paths to.  Permissions are not modelled. *)
Record World : Type := mkWorld {
  cwd : string;
  files : gmap string string;
  dirs : gset string
}.

Definition set_cwd (d : string) (w : World) : World :=
  {| cwd := d; files := files w; dirs := dirs w |}.

Definition set_files (f : gmap string string) (w : World) : World :=
  {| cwd := cwd w; files := f; dirs := dirs w |}.

Definition resolve (w : World) (path : string) : string :=
  posixpath.join (cwd w) path.

(** Exceptions.  Python raises [OSError] throughout; the specification names
    the one raised by a file operation [FileAccessError] and the one raised
    when the child process cannot be started [SubprocessError]. *)
Inductive exn : Type :=
  | FileAccessError (path : string)
  | SubprocessError (args : list string).

Inductive result (A : Type) : Type :=
  | Ok (a : A)
  | Raise (e : exn).
Arguments Ok {A} a.
Arguments Raise {A} e.

(** A statement of the script: it runs in a world, leaves a world and either
    yields a value or raises. *)
Definition M (A : Type) : Type := World -> result A * World.

#[global] Instance M_ret : MRet M := λ A a w, (Ok a, w).
#[global] Instance M_bind : MBind M := λ A B f m w,
  match m w with
  | (Ok a, w') => f a w'
  | (Raise e, w') => (Raise e, w')
  end.

(** ** Built-ins and library calls *)

(** [open(path)]: the handle is the resolved path. *)
Definition open_r (path : string) : M string := λ w,
  let p := resolve w path in
  match files w !! p with
  | Some _ => (Ok p, w)
  | None => (Raise (FileAccessError path), w)
  end.

(** [open(path, 'w')] creates the file or empties it; its directory must
    exist. *)
Definition open_w (path : string) : M string := λ w,
  let p := resolve w path in
  if decide (posixpath.dirname p ∈ dirs w)
  then (Ok p, set_files (<[p := EmptyString]> (files w)) w)
  else (Raise (FileAccessError path), w).

(** [for line in f]: the lines of the file as it is when the loop runs.  An
    open file cannot vanish, so the default is never taken. *)
Definition iterate (handle : string) : M (list string) := λ w,
  (Ok (read_lines (default EmptyString (files w !! handle))), w).

(** [f.writelines(lines)] appends the lines to what was written so far. *)
Definition writelines (handle : string) (lines : list string) : M unit := λ w,
  let old := default EmptyString (files w !! handle) in
  (Ok tt, set_files (<[handle := old +:+ concat_lines lines]> (files w)) w).

Definition close (handle : string) : M unit := mret tt.

(** The operating system's way of running a program: given the argument
    vector and the world, either the program cannot be started, or it exits
    with a status and leaves a world behind. *)
Definition Spawn : Type := list string -> World -> option (Z * World).

(** [subprocess.call(args)] waits for the child and returns its exit status.
    The child has its own working directory; ours stays. *)
Definition call (spawn : Spawn) (args : list string) : M Z := λ w,
  match spawn args w with
  | None => (Raise (SubprocessError args), w)
  | Some (status, w') => (Ok status, set_cwd (cwd w) w')
  end.

Module os.

Module path := posixpath.

Definition chdir (d : string) : M unit := λ w,
  let p := resolve w d in
  if decide (p ∈ dirs w) then (Ok tt, set_cwd p w)
  else (Raise (FileAccessError d), w).

Definition remove (file : string) : M unit := λ w,
  let p := resolve w file in
  match files w !! p with
  | Some _ => (Ok tt, set_files (delete p (files w)) w)
  | None => (Raise (FileAccessError file), w)
  end.

End os.

(** ** Module constants (lines 4 to 13) *)

Definition assimp_dir : string := "./assimpLib/".
Definition build_file : string := os.path.join assimp_dir "port/iOS/build.sh".
Definition build_temp_file : string :=
  os.path.join assimp_dir "port/iOS/build_current.sh".
Definition build_folder : string := os.path.join assimp_dir "lib/iOS/".

Definition arch_flag_name_device : string := "BUILD_ARCHS_DEVICE".
Definition arch_flag_name_simulator : string := "BUILD_ARCHS_SIMULATOR".

Definition valid_archs_device : string := "arm64e arm64".
Definition valid_archs_simulator : string := "x86_64".

(** ** The line rewrite (lines 21 to 30) *)

(** [check_line_from_parts(left, right)] reads the module-level variable
    [line]; here the variable is the third argument.  The two literals of
    line 23 are an equals sign followed by a double quote, and a double quote
    followed by a line feed. *)
Definition check_line_from_parts (left right : string) (line : string) : string :=
  if startswith line left
  then left +:+ String "="%char (String DQUOTE EmptyString)
            +:+ right +:+ String DQUOTE (String LF EmptyString)
  else line.

(** The text a matching line is replaced by, under a name of its own for
    the statements below. *)
Definition assignment (left right : string) : string :=
  left +:+ String "="%char (String DQUOTE EmptyString)
       +:+ right +:+ String DQUOTE (String LF EmptyString).

(** The body of the [for] loop: two assignments to [line], then
    [new_lines.append(line)]. *)
Definition rewrite_line (line : string) : string :=
  let line := check_line_from_parts arch_flag_name_device valid_archs_device line in
  let line := check_line_from_parts arch_flag_name_simulator valid_archs_simulator line in
  line.

Definition loop_body (new_lines : list string) (line : string) : list string :=
  new_lines ++ [rewrite_line line].

(** The whole loop, started from [new_lines = []]. *)
Definition patch_lines (lines : list string) : list string :=
  fold_left loop_body lines [].

(** ** The script *)

(** Lines 15 to 34: open both files, run the loop, write, close. *)
Definition patch_script : M unit :=
  origin_build_file ← open_r build_file;
  let lines := origin_build_file in
  new_file ← open_w build_temp_file;
  lines ← iterate lines;
  let new_lines := patch_lines lines in
  writelines new_file new_lines;;
  close new_file;;
  close origin_build_file.

(** Lines 35 to 38: enter the directory of the patched script, run it,
    remove it.  The value of [call] is dropped. *)
Definition build (spawn : Spawn) : M unit :=
  os.chdir (os.path.dirname build_temp_file);;
  let build_temp_file := os.path.basename build_temp_file in
  call spawn ["sh"; build_temp_file];;
  os.remove build_temp_file.

Definition main (spawn : Spawn) : M unit :=
  patch_script;; build spawn.

(** ** Vocabulary of the statements *)

(** A line that ends with its line feed and has no other. *)
Fixpoint is_terminated_line (l : string) : bool :=
  match l with
  | EmptyString => false
  | String c l' =>
      if Ascii.eqb c LF
      then match l' with EmptyString => true | _ => false end
      else is_terminated_line l'
  end.

(** A last line without line feed: not empty, no line feed in it. *)
Definition is_open_line (l : string) : bool :=
  match l with
  | EmptyString => false
  | _ => negb (contains l LF)
  end.

(** The shape of what iterating a text file yields: terminated lines, the
    last of which may be open instead. *)
Fixpoint lines_ok (ls : list string) : bool :=
  match ls with
  | [] => true
  | l :: ls' =>
      match ls' with
      | [] => is_terminated_line l || is_open_line l
      | _ => is_terminated_line l && lines_ok ls'
      end
  end.

(** No carriage return in any line. *)
Definition no_cr (ls : list string) : bool :=
  forallb (fun l => negb (contains l CR)) ls.

(** The separator [join] puts after its first argument when the second is
    relative. *)
Definition joint (a : string) : string :=
  if String.eqb a EmptyString || endswith_char a SEP
  then EmptyString else String SEP EmptyString.

(** The three path spellings the script touches, as resolved when it
    starts in the world [w], and the argument vector it passes to [call]. *)
Definition source_key (w : World) : string := resolve w build_file.
Definition temp_key (w : World) : string := resolve w build_temp_file.
Definition work_dir (w : World) : string :=
  resolve w (os.path.dirname build_temp_file).
Definition sh_args : list string := ["sh"; os.path.basename build_temp_file].

(** What the script writes for a source file with content [src]. *)
Definition patched_text (src : string) : string :=
  concat_lines (patch_lines (read_lines src)).

(** The world in which the child process starts: the patched script is in
    place and the working directory is its directory. *)
Definition shell_world (w : World) (src : string) : World :=
  set_cwd (work_dir w) (set_files (<[temp_key w := patched_text src]> (files w)) w).

(** The double quote and the line feed as one-character strings. *)
Definition dq : string := String DQUOTE EmptyString.
Definition nl : string := String LF EmptyString.

(** The rewrite as the specification describes its alternative form: each
    prefix is tested on the original line, independently of the other. *)
Definition independent_checks (line : string) : string :=
  if startswith line arch_flag_name_device
  then arch_flag_name_device +:+ "=" +:+ dq +:+ valid_archs_device +:+ dq +:+ nl
  else if startswith line arch_flag_name_simulator
  then arch_flag_name_simulator +:+ "=" +:+ dq +:+ valid_archs_simulator +:+ dq +:+ nl
  else line.

(** ** Sample worlds *)

(** A build script with one line for each flag and one other line. *)
Definition demo_script : string :=
  "#!/bin/sh" +:+ nl +:+
  "BUILD_ARCHS_DEVICE=arm64" +:+ nl +:+
  "BUILD_ARCHS_SIMULATOR=i386" +:+ nl.

(** A checkout that has the script, seen from its parent directory. *)
Definition demo_world : World :=
  {| cwd := EmptyString;
     files := {[ build_file := demo_script ]};
     dirs := {[ os.path.dirname build_file ]} |}.

(** A directory without the assimp checkout. *)
Definition empty_world : World :=
  {| cwd := EmptyString; files := ∅; dirs := ∅ |}.

(** A shell whose script changes nothing and exits with the given status. *)
Definition spawn_status (status : Z) : Spawn := λ _ w, Some (status, w).

(** ** Further vocabulary and samples *)

(** No line starts with one of the two flag names. *)
Definition no_flag_lines (ls : list string) : bool :=
  forallb (fun l => negb (startswith l arch_flag_name_device)
                    && negb (startswith l arch_flag_name_simulator)) ls.

(** The same way of running programs, with every exit status sent through
    [f]. *)
Definition map_status (f : Z -> Z) (spawn : Spawn) : Spawn := λ args w,
  match spawn args w with
  | Some (status, w') => Some (f status, w')
  | None => None
  end.

(** A script in which no line begins with a flag name: the assignment is
    indented, commented out, or exported. *)
Definition plain_script : string :=
  "  BUILD_ARCHS_DEVICE=arm64" +:+ nl +:+
  "# BUILD_ARCHS_SIMULATOR=i386" +:+ nl +:+
  "export BUILD_ARCHS_DEVICE".


(** No shell on this machine. *)
Definition spawn_fails : Spawn := λ _ _, None.

(** A script that deletes every file, itself included. *)
Definition spawn_wipes : Spawn := λ _ w, Some (0%Z, set_files ∅ w).

(** * Proofs *)

(** ** Strings *)

Lemma app_cons_s (c : ascii) (s t : string) :
  String c s +:+ t = String c (s +:+ t).
Proof. reflexivity. Qed.

Lemma app_empty_l (s : string) : EmptyString +:+ s = s.
Proof. reflexivity. Qed.

Lemma app_empty_r (s : string) : s +:+ EmptyString = s.
Proof.
  induction s as [|c s IH]; [reflexivity|].
  now rewrite app_cons_s, IH.
Qed.

Lemma app_assoc_s (a b c : string) : (a +:+ b) +:+ c = a +:+ (b +:+ c).
Proof.
  induction a as [|x a IH]; [reflexivity|].
  now rewrite !app_cons_s, IH.
Qed.

Lemma app_inv_head_s (a b c : string) : a +:+ b = a +:+ c -> b = c.
Proof.
  induction a as [|x a IH]; intros H; [exact H|].
  rewrite !app_cons_s in H. injection H as H. now apply IH.
Qed.

Lemma contains_app (a b : string) (c : ascii) :
  contains (a +:+ b) c = contains a c || contains b c.
Proof.
  induction a as [|x a IH]; [reflexivity|].
  rewrite app_cons_s. simpl.
  destruct (Ascii.eqb x c); [reflexivity | exact IH].
Qed.

Lemma all_char_app (a b : string) (c : ascii) :
  all_char (a +:+ b) c = all_char a c && all_char b c.
Proof.
  induction a as [|x a IH]; [reflexivity|].
  rewrite app_cons_s. simpl.
  rewrite IH. now rewrite andb_assoc.
Qed.

(** ** [startswith] is the prefix test *)

Lemma startswith_app (left rest : string) : startswith (left +:+ rest) left = true.
Proof.
  induction left as [|c left IH]; [reflexivity|].
  rewrite app_cons_s. simpl. now rewrite Ascii.eqb_refl.
Qed.

Lemma startswith_true (line left : string) :
  startswith line left = true -> StartsWith line left.
Proof.
  revert line. induction left as [|c left IH]; intros line H.
  - now exists line.
  - destruct line as [|d line]; simpl in H; [discriminate|].
    destruct (Ascii.eqb d c) eqn:E; [|discriminate].
    apply Ascii.eqb_eq in E. subst d.
    destruct (IH _ H) as [rest ->]. now exists rest.
Qed.

Lemma startswith_spec (line left : string) :
  startswith line left = true <-> StartsWith line left.
Proof.
  split; [apply startswith_true|].
  intros [rest ->]. apply startswith_app.
Qed.

Lemma startswith_false (line left : string) :
  startswith line left = false <-> ~ StartsWith line left.
Proof.
  rewrite <- startswith_spec. destruct (startswith line left); split; intros H;
    try reflexivity; try discriminate; try (intros K; discriminate K).
  now contradict H.
Qed.

(** A prefix of a prefix: whatever starts with [a +:+ b] starts with [a]. *)
Lemma startswith_weaken (line a b : string) :
  startswith line (a +:+ b) = true -> startswith line a = true.
Proof.
  rewrite !startswith_spec. intros [rest ->].
  exists (b +:+ rest). apply app_assoc_s.
Qed.

(** ** One call of [check_line_from_parts] *)

Lemma check_line_match (left right line : string) :
  startswith line left = true ->
  check_line_from_parts left right line = assignment left right.
Proof. unfold check_line_from_parts. now intros ->. Qed.

Lemma check_line_nomatch (left right line : string) :
  startswith line left = false ->
  check_line_from_parts left right line = line.
Proof. unfold check_line_from_parts. now intros ->. Qed.

Lemma assignment_startswith (left right : string) :
  startswith (assignment left right) left = true.
Proof. apply startswith_app. Qed.

(** ** The two flag names exclude each other *)

(** Both names agree on [BUILD_ARCHS_] and differ in the next character. *)
Lemma flags_exclusive (line : string) :
  startswith line arch_flag_name_device = true ->
  startswith line arch_flag_name_simulator = true -> False.
Proof.
  intros Hd Hs.
  apply (startswith_weaken line "BUILD_ARCHS_D" "EVICE") in Hd.
  apply (startswith_weaken line "BUILD_ARCHS_S" "IMULATOR") in Hs.
  apply startswith_true in Hd, Hs.
  destruct Hd as [r1 ->]. destruct Hs as [r2 Hs]. discriminate Hs.
Qed.

Lemma device_assignment_not_simulator :
  startswith (assignment arch_flag_name_device valid_archs_device)
             arch_flag_name_simulator = false.
Proof. reflexivity. Qed.

Lemma simulator_assignment_not_device :
  startswith (assignment arch_flag_name_simulator valid_archs_simulator)
             arch_flag_name_device = false.
Proof. reflexivity. Qed.

(** ** The loop body, by cases on the source line *)

Lemma rewrite_line_device (line : string) :
  startswith line arch_flag_name_device = true ->
  rewrite_line line = assignment arch_flag_name_device valid_archs_device.
Proof.
  intros H. unfold rewrite_line. rewrite (check_line_match _ _ _ H).
  apply check_line_nomatch, device_assignment_not_simulator.
Qed.

Lemma rewrite_line_simulator (line : string) :
  startswith line arch_flag_name_simulator = true ->
  rewrite_line line = assignment arch_flag_name_simulator valid_archs_simulator.
Proof.
  intros H. unfold rewrite_line.
  rewrite (check_line_nomatch arch_flag_name_device valid_archs_device line).
  - now apply check_line_match.
  - destruct (startswith line arch_flag_name_device) eqn:E; [|reflexivity].
    destruct (flags_exclusive line E H).
Qed.

Lemma rewrite_line_other (line : string) :
  startswith line arch_flag_name_device = false ->
  startswith line arch_flag_name_simulator = false ->
  rewrite_line line = line.
Proof.
  intros Hd Hs. unfold rewrite_line.
  rewrite (check_line_nomatch _ _ _ Hd). now apply check_line_nomatch.
Qed.

(** The three cases, for proofs by case analysis. *)
Lemma rewrite_line_cases (line : string) :
  (startswith line arch_flag_name_device = true /\
   rewrite_line line = assignment arch_flag_name_device valid_archs_device) \/
  (startswith line arch_flag_name_device = false /\
   startswith line arch_flag_name_simulator = true /\
   rewrite_line line = assignment arch_flag_name_simulator valid_archs_simulator) \/
  (startswith line arch_flag_name_device = false /\
   startswith line arch_flag_name_simulator = false /\
   rewrite_line line = line).
Proof.
  destruct (startswith line arch_flag_name_device) eqn:Hd.
  - left. split; [reflexivity|]. now apply rewrite_line_device.
  - right. destruct (startswith line arch_flag_name_simulator) eqn:Hs.
    + left. repeat split. now apply rewrite_line_simulator.
    + right. repeat split. now apply rewrite_line_other.
Qed.

(** ** The loop is a map *)

Lemma fold_loop_body (lines acc : list string) :
  fold_left loop_body lines acc = acc ++ map rewrite_line lines.
Proof.
  revert acc. induction lines as [|l lines IH]; intros acc; simpl.
  - now rewrite app_nil_r.
  - rewrite IH. unfold loop_body. now rewrite <- app_assoc.
Qed.

Lemma patch_lines_map (lines : list string) :
  patch_lines lines = map rewrite_line lines.
Proof. unfold patch_lines. now rewrite fold_loop_body. Qed.

Lemma patch_lines_lookup (lines : list string) (i : nat) :
  patch_lines lines !! i = rewrite_line <$> lines !! i.
Proof. rewrite patch_lines_map. apply list_lookup_fmap. Qed.

(** ** Lines of a text file *)

(** Line ends of all three kinds, and a last line without one. *)
Example read_lines_mixed :
  read_lines ("a" +:+ String CR nl +:+ "b" +:+ String CR "c" +:+ nl +:+ "d")
  = ["a" +:+ nl; "b" +:+ nl; "c" +:+ nl; "d"].
Proof. reflexivity. Qed.

Lemma concat_file_lines (s : string) : concat_lines (file_lines s) = s.
Proof.
  induction s as [|c s IH]; [reflexivity|]. simpl.
  destruct (Ascii.eqb c LF).
  - simpl. now rewrite app_cons_s, app_empty_l, IH.
  - destruct (file_lines s) as [|l ls]; simpl in *.
    + now rewrite <- IH.
    + now rewrite app_cons_s, IH.
Qed.

Lemma file_lines_ok (s : string) : lines_ok (file_lines s) = true.
Proof.
  induction s as [|c s IH]; [reflexivity|]. simpl.
  destruct (Ascii.eqb c LF) eqn:E.
  - destruct (file_lines s) as [|l ls] eqn:F.
    + simpl. now rewrite E.
    + change (is_terminated_line (String c EmptyString) && lines_ok (l :: ls) = true).
      simpl is_terminated_line. rewrite E. exact IH.
  - destruct (file_lines s) as [|l ls] eqn:F.
    + simpl. rewrite E. reflexivity.
    + destruct ls as [|l2 ls].
      * simpl in IH |- *. rewrite E.
        destruct (is_terminated_line l); [reflexivity|]. simpl in IH |- *.
        destruct l; [discriminate | exact IH].
      * change (is_terminated_line l && lines_ok (l2 :: ls) = true) in IH.
        change (is_terminated_line (String c l) && lines_ok (l2 :: ls) = true).
        simpl is_terminated_line. now rewrite E.
Qed.

Lemma file_lines_terminated (l rest : string) :
  is_terminated_line l = true ->
  file_lines (l +:+ rest) = l :: file_lines rest.
Proof.
  induction l as [|c l IH]; [discriminate|].
  rewrite app_cons_s. simpl. destruct (Ascii.eqb c LF).
  - destruct l; [|discriminate]. reflexivity.
  - intros H. now rewrite (IH H).
Qed.

Lemma file_lines_open (l : string) :
  is_open_line l = true -> file_lines l = [l].
Proof.
  induction l as [|c l IH]; [discriminate|].
  unfold is_open_line. simpl.
  destruct (Ascii.eqb c LF); [discriminate|]. intros H.
  destruct l as [|d l]; [reflexivity|].
  now rewrite (IH H).
Qed.

(** Writing well-shaped lines and reading them back gives the same lines. *)
Lemma file_lines_concat (ls : list string) :
  lines_ok ls = true -> file_lines (concat_lines ls) = ls.
Proof.
  induction ls as [|l ls IH]; [reflexivity|].
  destruct ls as [|l2 ls].
  - simpl. rewrite app_empty_r. intros [H|H]%orb_true_iff.
    + rewrite <- (app_empty_r l) at 1. now rewrite file_lines_terminated.
    + now apply file_lines_open.
  - intros H.
    change (is_terminated_line l && lines_ok (l2 :: ls) = true) in H.
    apply andb_true_iff in H as [Hl Hls].
    change (concat_lines (l :: l2 :: ls)) with (l +:+ concat_lines (l2 :: ls)).
    rewrite (file_lines_terminated _ _ Hl). now rewrite (IH Hls).
Qed.

Lemma contains_concat_lines (ls : list string) (c : ascii) :
  contains (concat_lines ls) c = existsb (fun l => contains l c) ls.
Proof.
  induction ls as [|l ls IH]; [reflexivity|].
  simpl. now rewrite contains_app, IH.
Qed.

Lemma no_cr_concat (ls : list string) :
  no_cr ls = negb (contains (concat_lines ls) CR).
Proof.
  rewrite contains_concat_lines. unfold no_cr.
  induction ls as [|l ls IH]; [reflexivity|].
  simpl. rewrite IH. now rewrite negb_orb.
Qed.

(** ** Newline translation *)

Lemma universal_newlines_no_cr_aux (s : string) :
  contains (universal_newlines s) CR = false /\
  forall c, contains (universal_newlines (String c s)) CR = false.
Proof.
  induction s as [|d s [IH1 IH2]].
  - split; [reflexivity|]. intros c. simpl.
    destruct (Ascii.eqb c CR) eqn:E; simpl; [reflexivity|]. now rewrite E.
  - split; [apply IH2|]. intros c.
    change (universal_newlines (String c (String d s))) with
      (if Ascii.eqb c CR
       then if Ascii.eqb d LF then String LF (universal_newlines s)
            else String LF (universal_newlines (String d s))
       else String c (universal_newlines (String d s))).
    destruct (Ascii.eqb c CR) eqn:E.
    + destruct (Ascii.eqb d LF).
      * change (contains (universal_newlines s) CR = false). exact IH1.
      * change (contains (universal_newlines (String d s)) CR = false). apply IH2.
    + cbn [contains]. rewrite E. apply IH2.
Qed.

Lemma universal_newlines_no_cr (s : string) :
  contains (universal_newlines s) CR = false.
Proof. apply universal_newlines_no_cr_aux. Qed.

Lemma universal_newlines_id (s : string) :
  contains s CR = false -> universal_newlines s = s.
Proof.
  induction s as [|c s IH]; [reflexivity|]. simpl.
  destruct (Ascii.eqb c CR); [discriminate|]. intros H. now rewrite (IH H).
Qed.

Lemma read_lines_ok (content : string) : lines_ok (read_lines content) = true.
Proof. apply file_lines_ok. Qed.

Lemma read_lines_no_cr (content : string) : no_cr (read_lines content) = true.
Proof.
  rewrite no_cr_concat. unfold read_lines.
  now rewrite concat_file_lines, universal_newlines_no_cr.
Qed.

(** ** The rewrite keeps the shape of the lines *)

Lemma rewrite_line_terminated (l : string) :
  is_terminated_line l = true -> is_terminated_line (rewrite_line l) = true.
Proof.
  intros H.
  destruct (rewrite_line_cases l) as [[_ ->]|[(_ & _ & ->)|(_ & _ & ->)]];
    [reflexivity | reflexivity | exact H].
Qed.

Lemma rewrite_line_last (l : string) :
  is_terminated_line l || is_open_line l = true ->
  is_terminated_line (rewrite_line l) || is_open_line (rewrite_line l) = true.
Proof.
  intros H.
  destruct (rewrite_line_cases l) as [[_ ->]|[(_ & _ & ->)|(_ & _ & ->)]];
    [reflexivity | reflexivity | exact H].
Qed.

Lemma rewrite_line_no_cr (l : string) :
  contains l CR = false -> contains (rewrite_line l) CR = false.
Proof.
  intros H.
  destruct (rewrite_line_cases l) as [[_ ->]|[(_ & _ & ->)|(_ & _ & ->)]];
    [reflexivity | reflexivity | exact H].
Qed.

Lemma map_rewrite_ok (ls : list string) :
  lines_ok ls = true -> lines_ok (map rewrite_line ls) = true.
Proof.
  induction ls as [|l ls IH]; [reflexivity|].
  destruct ls as [|l2 ls].
  - apply rewrite_line_last.
  - intros H.
    change (is_terminated_line l && lines_ok (l2 :: ls) = true) in H.
    apply andb_true_iff in H as [Hl Hls].
    change (is_terminated_line (rewrite_line l)
            && lines_ok (map rewrite_line (l2 :: ls)) = true).
    now rewrite (rewrite_line_terminated _ Hl), (IH Hls).
Qed.

Lemma map_rewrite_no_cr (ls : list string) :
  no_cr ls = true -> no_cr (map rewrite_line ls) = true.
Proof.
  unfold no_cr. induction ls as [|l ls IH]; [reflexivity|]. simpl.
  intros [Hl Hls]%andb_true_iff. apply negb_true_iff in Hl.
  now rewrite (rewrite_line_no_cr _ Hl), (IH Hls).
Qed.

(** Reading the patched text back yields exactly the rewritten lines. *)
Lemma read_patched_text (src : string) :
  read_lines (patched_text src) = patch_lines (read_lines src).
Proof.
  unfold patched_text. rewrite patch_lines_map.
  pose proof (map_rewrite_no_cr _ (read_lines_no_cr src)) as Hcr.
  rewrite no_cr_concat in Hcr. apply negb_true_iff in Hcr.
  unfold read_lines at 1. rewrite (universal_newlines_id _ Hcr).
  apply file_lines_concat, map_rewrite_ok, read_lines_ok.
Qed.

(** ** Paths *)

(** The constants of lines 5 to 7 and the two paths of lines 35 and 36, as
    posixpath computes them. *)
Example build_file_value : build_file = "./assimpLib/port/iOS/build.sh".
Proof. reflexivity. Qed.

Example build_temp_file_value :
  build_temp_file = "./assimpLib/port/iOS/build_current.sh".
Proof. reflexivity. Qed.

Example dirname_build_temp_file :
  os.path.dirname build_temp_file = "./assimpLib/port/iOS".
Proof. reflexivity. Qed.

Example basename_build_temp_file :
  os.path.basename build_temp_file = "build_current.sh".
Proof. reflexivity. Qed.

Lemma endswith_char_app (a b : string) (c : ascii) :
  b <> EmptyString -> endswith_char (a +:+ b) c = endswith_char b c.
Proof.
  intros Hb. induction a as [|x a IH]; [reflexivity|].
  rewrite app_cons_s. simpl. rewrite IH.
  destruct (a +:+ b) eqn:E; [|reflexivity].
  destruct a; [|discriminate E]. now destruct b.
Qed.

Lemma eqb_app_nonempty (a b : string) :
  b <> EmptyString -> String.eqb (a +:+ b) EmptyString = false.
Proof.
  intros Hb. destruct a; [|reflexivity].
  rewrite app_empty_l. now destruct b.
Qed.

Lemma head_app (a b : string) :
  contains b SEP = true -> posixpath.head (a +:+ b) = a +:+ posixpath.head b.
Proof.
  intros Hb. induction a as [|x a IH]; [reflexivity|].
  rewrite !app_cons_s. simpl.
  now rewrite contains_app, Hb, orb_true_r, IH.
Qed.

Lemma rstrip_app (a b : string) (c : ascii) :
  rstrip b c <> EmptyString -> rstrip (a +:+ b) c = a +:+ rstrip b c.
Proof.
  intros Hb. induction a as [|x a IH]; [reflexivity|].
  rewrite !app_cons_s. simpl. rewrite IH.
  destruct (a +:+ rstrip b c) eqn:E; [|reflexivity].
  destruct a; [|discriminate E]. now rewrite app_empty_l in E.
Qed.

Lemma join_relative (a b : string) :
  startswith b (String SEP EmptyString) = false ->
  posixpath.join a b = a +:+ joint a +:+ b.
Proof.
  intros Hb. unfold posixpath.join, joint. rewrite Hb.
  now destruct (String.eqb a EmptyString || endswith_char a SEP).
Qed.

(** The directory of the resolved temporary path is the resolved directory
    the script changes to. *)
Lemma dirname_temp_key (w : World) :
  posixpath.dirname (temp_key w) = work_dir w.
Proof.
  unfold temp_key, work_dir, resolve.
  rewrite !join_relative by reflexivity.
  rewrite <- !app_assoc_s. set (y := cwd w +:+ joint (cwd w)).
  unfold posixpath.dirname.
  rewrite head_app by reflexivity.
  rewrite all_char_app.
  replace (all_char (posixpath.head build_temp_file) SEP) with false by reflexivity.
  rewrite andb_false_r.
  now rewrite rstrip_app by discriminate.
Qed.

Lemma app_nonempty (a b : string) : b <> EmptyString -> a +:+ b <> EmptyString.
Proof. intros Hb. destruct a; [exact Hb | discriminate]. Qed.

(** Joining in two steps is joining once with the longer relative path. *)
Lemma join_join (c d b : string) :
  startswith d (String SEP EmptyString) = false ->
  startswith b (String SEP EmptyString) = false ->
  startswith (d +:+ String SEP EmptyString +:+ b) (String SEP EmptyString) = false ->
  d <> EmptyString ->
  endswith_char d SEP = false ->
  posixpath.join (posixpath.join c d) b
  = posixpath.join c (d +:+ String SEP EmptyString +:+ b).
Proof.
  intros Hd Hb Hdb Hne Hend.
  rewrite (join_relative c d Hd), (join_relative _ b Hb), (join_relative c _ Hdb).
  assert (joint (c +:+ joint c +:+ d) = String SEP EmptyString) as ->.
  { unfold joint at 1.
    rewrite eqb_app_nonempty by now apply app_nonempty.
    rewrite endswith_char_app by now apply app_nonempty.
    rewrite endswith_char_app by exact Hne.
    now rewrite Hend. }
  now rewrite !app_assoc_s.
Qed.

(** After [chdir], the base name denotes the file that was written under
    the full path. *)
Lemma resolve_after_chdir (w w' : World) :
  resolve (set_cwd (work_dir w) w') (os.path.basename build_temp_file)
  = temp_key w.
Proof.
  unfold resolve, temp_key, work_dir, resolve, set_cwd, cwd at 1.
  now rewrite join_join.
Qed.

(** Source and temporary file are different files. *)
Lemma source_key_ne_temp_key (w : World) : source_key w <> temp_key w.
Proof.
  unfold source_key, temp_key, resolve.
  rewrite !join_relative by reflexivity.
  intros H. apply app_inv_head_s, app_inv_head_s in H. discriminate H.
Qed.

(** ** The first half of the script: patching *)

Lemma bind_ok {A B : Type} (m : M A) (f : A -> M B) (w w' : World) (a : A) :
  m w = (Ok a, w') -> (m ≫= f) w = f a w'.
Proof. unfold mbind, M_bind. now intros ->. Qed.

Lemma bind_raise {A B : Type} (m : M A) (f : A -> M B) (w w' : World) (e : exn) :
  m w = (Raise e, w') -> (m ≫= f) w = (Raise e, w').
Proof. unfold mbind, M_bind. now intros ->. Qed.

(** Without the source file nothing happens at all. *)
Lemma patch_script_missing (w : World) :
  files w !! source_key w = None ->
  patch_script w = (Raise (FileAccessError build_file), w).
Proof.
  intros H. unfold patch_script. apply bind_raise.
  unfold open_r. fold (source_key w). now rewrite H.
Qed.

(** With the source file but without the directory to write to, the second
    [open] raises; the world is still untouched. *)
Lemma patch_script_unwritable (w : World) (src : string) :
  files w !! source_key w = Some src ->
  work_dir w ∉ dirs w ->
  patch_script w = (Raise (FileAccessError build_temp_file), w).
Proof.
  intros Hsrc Hdir. unfold patch_script.
  erewrite bind_ok; [|unfold open_r; fold (source_key w); now rewrite Hsrc].
  apply bind_raise. unfold open_w. fold (temp_key w).
  rewrite dirname_temp_key. now rewrite decide_False.
Qed.

(** Otherwise the temporary file receives the patched text and nothing else
    changes. *)
Lemma patch_script_ok (w : World) (src : string) :
  files w !! source_key w = Some src ->
  work_dir w ∈ dirs w ->
  patch_script w
  = (Ok tt, set_files (<[temp_key w := patched_text src]> (files w)) w).
Proof.
  intros Hsrc Hdir. unfold patch_script.
  erewrite bind_ok; [|unfold open_r; fold (source_key w); now rewrite Hsrc].
  erewrite bind_ok;
    [|unfold open_w; fold (temp_key w); rewrite dirname_temp_key;
      now rewrite decide_True].
  erewrite bind_ok; [|reflexivity].
  erewrite bind_ok; [|reflexivity].
  erewrite bind_ok; [|reflexivity].
  unfold close, mret, M_ret, set_files. simpl.
  rewrite lookup_insert_eq. simpl.
  rewrite lookup_insert_ne by (apply not_eq_sym, source_key_ne_temp_key).
  rewrite Hsrc. simpl. rewrite insert_insert_eq.
  reflexivity.
Qed.

(** ** The second half: running and removing *)

Lemma build_started (spawn : Spawn) (w : World) (src : string) :
  work_dir w ∈ dirs w ->
  build spawn (set_files (<[temp_key w := patched_text src]> (files w)) w)
  = (call spawn sh_args ≫= λ _, os.remove (os.path.basename build_temp_file))
      (shell_world w src).
Proof.
  intros Hdir. unfold build.
  erewrite bind_ok; [reflexivity|].
  unfold os.chdir. cbn [dirs set_files].
  change (resolve _ (os.path.dirname build_temp_file)) with (work_dir w).
  now rewrite decide_True.
Qed.

Lemma remove_temp (w w' : World) :
  os.remove (os.path.basename build_temp_file) (set_cwd (work_dir w) w')
  = match files w' !! temp_key w with
    | Some _ => (Ok tt, set_files (delete (temp_key w) (files w'))
                                  (set_cwd (work_dir w) w'))
    | None => (Raise (FileAccessError (os.path.basename build_temp_file)),
               set_cwd (work_dir w) w')
    end.
Proof. unfold os.remove. now rewrite resolve_after_chdir. Qed.

(** The whole run, once the source file is there and writable: it is decided
    by what the child process does. *)
Lemma main_run (spawn : Spawn) (w : World) (src : string) :
  files w !! source_key w = Some src ->
  work_dir w ∈ dirs w ->
  main spawn w
  = match spawn sh_args (shell_world w src) with
    | None => (Raise (SubprocessError sh_args), shell_world w src)
    | Some (status, w') =>
        match files w' !! temp_key w with
        | Some _ => (Ok tt, set_files (delete (temp_key w) (files w'))
                                      (set_cwd (work_dir w) w'))
        | None => (Raise (FileAccessError (os.path.basename build_temp_file)),
                   set_cwd (work_dir w) w')
        end
    end.
Proof.
  intros Hsrc Hdir. unfold main.
  rewrite (bind_ok _ _ _ _ _ (patch_script_ok w src Hsrc Hdir)).
  rewrite (build_started spawn w src Hdir).
  unfold mbind at 1, M_bind at 1, call.
  destruct (spawn sh_args (shell_world w src)) as [[status w']|]; [|reflexivity].
  change (cwd (shell_world w src)) with (work_dir w).
  apply remove_temp.
Qed.

(** * The claims *)

Lemma assignment_text (flagName value : string) :
  assignment flagName value = flagName +:+ "=" +:+ dq +:+ value +:+ dq +:+ nl.
Proof. reflexivity. Qed.

Lemma assignment_ends_with_newline (flagName value : string) :
  assignment flagName value = (flagName +:+ "=" +:+ dq +:+ value +:+ dq) +:+ nl.
Proof. rewrite !app_assoc_s. reflexivity. Qed.

(** C1. For every line, flag name and value, [check_line_from_parts] returns
    the flag name, an equals sign, the value in double quotes and a line feed
    when the line starts with the flag name, and the line itself, unchanged,
    when it does not. *)
Theorem C1_rewrite_line_contract (line flagName value : string) :
  (StartsWith line flagName ->
   check_line_from_parts flagName value line
   = flagName +:+ "=" +:+ dq +:+ value +:+ dq +:+ nl) /\
  (~ StartsWith line flagName ->
   check_line_from_parts flagName value line = line).
Proof.
  split; intros H.
  - apply startswith_spec in H. now rewrite (check_line_match _ _ _ H).
  - apply startswith_false in H. now apply check_line_nomatch.
Qed.

Lemma C1_rewrite_line_contract_witness :
  check_line_from_parts "BUILD_ARCHS_DEVICE" "arm64e arm64"
    ("BUILD_ARCHS_DEVICE=old_value" +:+ nl)
  = "BUILD_ARCHS_DEVICE" +:+ "=" +:+ dq +:+ "arm64e arm64" +:+ dq +:+ nl
  /\
  check_line_from_parts "BUILD_ARCHS_DEVICE" "arm64e arm64" ("make all" +:+ nl)
  = "make all" +:+ nl.
Proof.
  split.
  - apply (proj1 (C1_rewrite_line_contract _ _ _)).
    exists ("=old_value" +:+ nl). reflexivity.
  - apply (proj2 (C1_rewrite_line_contract _ _ _)).
    intros [rest H]. discriminate H.
Defined.

(** C3. The rewritten output has as many lines as the input: the list
    [new_lines] is as long as the list of lines read, for every list of lines
    (the empty one too), and the text written, read back line by line, has as
    many lines as the source text. *)
Theorem C3_line_count :
  (forall lines : list string, length (patch_lines lines) = length lines) /\
  (forall src : string,
     length (read_lines (patched_text src)) = length (read_lines src)).
Proof.
  assert (forall lines : list string, length (patch_lines lines) = length lines)
    as Hlen by (intros lines; rewrite patch_lines_map; apply length_map).
  split; [exact Hlen|].
  intros src. rewrite read_patched_text. apply Hlen.
Qed.

(** C4. At every position the rewritten line is the source line unless the
    source line begins with BUILD_ARCHS_DEVICE or with BUILD_ARCHS_SIMULATOR:
    a line that differs from its source had one of the two prefixes, and a
    line with neither passes through unchanged. *)
Theorem C4_only_flag_lines_change (lines : list string) (i : nat) (l : string) :
  lines !! i = Some l ->
  exists l',
    patch_lines lines !! i = Some l' /\
    (l' <> l ->
     StartsWith l arch_flag_name_device \/ StartsWith l arch_flag_name_simulator) /\
    (~ StartsWith l arch_flag_name_device ->
     ~ StartsWith l arch_flag_name_simulator -> l' = l).
Proof.
  intros H. exists (rewrite_line l).
  rewrite patch_lines_lookup, H. split; [reflexivity|].
  destruct (rewrite_line_cases l) as [[Hd _]|[(_ & Hs & _)|(Hd & Hs & ->)]].
  - apply startswith_spec in Hd. split; [now left | now intros K].
  - apply startswith_spec in Hs. split; [now right | now intros _ K].
  - split; [now intros K | reflexivity].
Qed.

Lemma C4_only_flag_lines_change_witness :
  exists l',
    patch_lines ["make all" +:+ nl; "BUILD_ARCHS_DEVICE=arm64" +:+ nl] !! 1
    = Some l' /\
    (l' <> "BUILD_ARCHS_DEVICE=arm64" +:+ nl ->
     StartsWith ("BUILD_ARCHS_DEVICE=arm64" +:+ nl) arch_flag_name_device \/
     StartsWith ("BUILD_ARCHS_DEVICE=arm64" +:+ nl) arch_flag_name_simulator) /\
    (~ StartsWith ("BUILD_ARCHS_DEVICE=arm64" +:+ nl) arch_flag_name_device ->
     ~ StartsWith ("BUILD_ARCHS_DEVICE=arm64" +:+ nl) arch_flag_name_simulator ->
     l' = "BUILD_ARCHS_DEVICE=arm64" +:+ nl).
Proof.
  apply (C4_only_flag_lines_change
           ["make all" +:+ nl; "BUILD_ARCHS_DEVICE=arm64" +:+ nl] 1).
  reflexivity.
Defined.

(** C5. The rewrite of a line (device pair, then simulator pair) is
    idempotent; so is the rewrite of a list of lines and of a whole text. *)
Theorem C5_rewrite_idempotent :
  (forall line : string, rewrite_line (rewrite_line line) = rewrite_line line) /\
  (forall lines : list string, patch_lines (patch_lines lines) = patch_lines lines) /\
  (forall src : string, patched_text (patched_text src) = patched_text src).
Proof.
  assert (forall line : string, rewrite_line (rewrite_line line) = rewrite_line line)
    as Hline.
  { intros line.
    destruct (rewrite_line_cases line) as [[_ ->]|[(_ & _ & ->)|(_ & _ & E)]];
      [reflexivity | reflexivity | now rewrite !E]. }
  assert (forall lines : list string, patch_lines (patch_lines lines) = patch_lines lines)
    as Hlist.
  { intros lines. rewrite !patch_lines_map, map_map.
    apply map_ext. intros l. apply Hline. }
  repeat split; [exact Hline | exact Hlist |].
  intros src. unfold patched_text at 1 3.
  now rewrite read_patched_text, Hlist.
Qed.

(** C6. Rewriting with the device pair and then, on the result, with the
    simulator pair gives what testing the two prefixes independently on the
    original line gives; no line starts with both prefixes, and a line
    rewritten for the device flag does not start with the simulator prefix. *)
Theorem C6_sequential_is_independent :
  (forall line : string,
     check_line_from_parts arch_flag_name_simulator valid_archs_simulator
       (check_line_from_parts arch_flag_name_device valid_archs_device line)
     = independent_checks line) /\
  (forall line : string,
     ~ (StartsWith line arch_flag_name_device /\
        StartsWith line arch_flag_name_simulator)) /\
  (forall line : string,
     StartsWith line arch_flag_name_device ->
     ~ StartsWith
         (check_line_from_parts arch_flag_name_device valid_archs_device line)
         arch_flag_name_simulator).
Proof.
  repeat split.
  - intros line. change (rewrite_line line = independent_checks line).
    unfold independent_checks.
    destruct (rewrite_line_cases line)
      as [[-> ->]|[(-> & -> & ->)|(-> & -> & ->)]]; reflexivity.
  - intros line [Hd Hs]. apply startswith_spec in Hd, Hs.
    exact (flags_exclusive line Hd Hs).
  - intros line Hd. apply startswith_spec in Hd.
    rewrite (check_line_match _ _ _ Hd). apply startswith_false.
    apply device_assignment_not_simulator.
Qed.

(** C7. Matching is a prefix test: whatever follows the flag name on the
    line, also further identifier characters as in BUILD_ARCHS_DEVICE_EXTRA,
    the line is replaced by the flag name, an equals sign, the value in
    double quotes and a line feed. *)
Theorem C7_prefix_test :
  (forall flagName value rest : string,
     check_line_from_parts flagName value (flagName +:+ rest)
     = flagName +:+ "=" +:+ dq +:+ value +:+ dq +:+ nl) /\
  check_line_from_parts "BUILD_ARCHS_DEVICE" valid_archs_device
    ("BUILD_ARCHS_DEVICE_EXTRA=armv7" +:+ nl)
  = "BUILD_ARCHS_DEVICE=" +:+ dq +:+ "arm64e arm64" +:+ dq +:+ nl.
Proof.
  split; [|reflexivity].
  intros flagName value rest.
  now rewrite (check_line_match _ _ _ (startswith_app flagName rest)).
Qed.

(** C10. Two lines that start with the same flag name are rewritten to the
    same text: the result depends on the flag name and the value only, not on
    anything after the prefix, and it ends with a line feed. *)
Theorem C10_matched_output_ignores_rest (flagName value line1 line2 : string) :
  StartsWith line1 flagName ->
  StartsWith line2 flagName ->
  check_line_from_parts flagName value line1
  = check_line_from_parts flagName value line2 /\
  check_line_from_parts flagName value line1
  = (flagName +:+ "=" +:+ dq +:+ value +:+ dq) +:+ nl.
Proof.
  intros H1%startswith_spec H2%startswith_spec.
  rewrite (check_line_match _ _ _ H1), (check_line_match _ _ _ H2).
  split; [reflexivity | apply assignment_ends_with_newline].
Qed.

Lemma C10_matched_output_ignores_rest_witness :
  check_line_from_parts "BUILD_ARCHS_SIMULATOR" "x86_64"
    ("BUILD_ARCHS_SIMULATOR=i386" +:+ nl)
  = check_line_from_parts "BUILD_ARCHS_SIMULATOR" "x86_64"
      "BUILD_ARCHS_SIMULATOR_OLD=i386 x86_64 # no line feed" /\
  check_line_from_parts "BUILD_ARCHS_SIMULATOR" "x86_64"
    ("BUILD_ARCHS_SIMULATOR=i386" +:+ nl)
  = ("BUILD_ARCHS_SIMULATOR" +:+ "=" +:+ dq +:+ "x86_64" +:+ dq) +:+ nl.
Proof.
  apply (C10_matched_output_ignores_rest "BUILD_ARCHS_SIMULATOR" "x86_64").
  - exists ("=i386" +:+ nl). reflexivity.
  - exists "_OLD=i386 x86_64 # no line feed". reflexivity.
Defined.

(** C8. If the source file does not exist, the run fails with
    FileAccessError for the source path and leaves the world as it was: in
    particular no temporary file has been created, because the temporary path
    is opened for writing only after the source has been opened. *)
Theorem C8_missing_source (spawn : Spawn) (w : World) :
  files w !! source_key w = None ->
  main spawn w = (Raise (FileAccessError build_file), w) /\
  files (main spawn w).2 !! temp_key w = files w !! temp_key w.
Proof.
  intros H.
  assert (main spawn w = (Raise (FileAccessError build_file), w)) as E.
  { unfold main. apply bind_raise. now apply patch_script_missing. }
  now rewrite E.
Qed.

Lemma C8_missing_source_witness :
  main (spawn_status 0) empty_world
  = (Raise (FileAccessError build_file), empty_world) /\
  files (main (spawn_status 0) empty_world).2 !! temp_key empty_world
  = files empty_world !! temp_key empty_world.
Proof. apply (C8_missing_source (spawn_status 0) empty_world). reflexivity. Defined.

(** C9. When the source script has the line BUILD_ARCHS_DEVICE=arm64 at one
    position and the line BUILD_ARCHS_SIMULATOR=i386 at another, the
    temporary file written by the script has, at the same two positions, the
    lines that assign arm64e arm64 and x86_64 in double quotes, and as many
    lines as the source.  A run that completes leaves no temporary file, and
    the run does complete when the child process exits and leaves the file in
    place. *)
Theorem C9_end_to_end (spawn : Spawn) (w : World) (src : string) (i j : nat) :
  files w !! source_key w = Some src ->
  work_dir w ∈ dirs w ->
  read_lines src !! i = Some ("BUILD_ARCHS_DEVICE=arm64" +:+ nl) ->
  read_lines src !! j = Some ("BUILD_ARCHS_SIMULATOR=i386" +:+ nl) ->
  (exists (w1 : World) (out : string),
     patch_script w = (Ok tt, w1) /\
     files w1 !! temp_key w = Some out /\
     read_lines out !! i
     = Some ("BUILD_ARCHS_DEVICE=" +:+ dq +:+ "arm64e arm64" +:+ dq +:+ nl) /\
     read_lines out !! j
     = Some ("BUILD_ARCHS_SIMULATOR=" +:+ dq +:+ "x86_64" +:+ dq +:+ nl) /\
     length (read_lines out) = length (read_lines src)) /\
  (forall wf : World,
     main spawn w = (Ok tt, wf) -> files wf !! temp_key w = None) /\
  (forall (status : Z) (w' : World),
     spawn sh_args (shell_world w src) = Some (status, w') ->
     is_Some (files w' !! temp_key w) ->
     exists wf : World, main spawn w = (Ok tt, wf)).
Proof.
  intros Hsrc Hdir Hi Hj. repeat split.
  - eexists _, (patched_text src).
    split; [exact (patch_script_ok w src Hsrc Hdir)|].
    split; [apply lookup_insert_eq|].
    rewrite read_patched_text, !patch_lines_lookup, Hi, Hj.
    repeat split. rewrite patch_lines_map. apply length_map.
  - intros wf. rewrite (main_run spawn w src Hsrc Hdir).
    destruct (spawn sh_args (shell_world w src)) as [[status w']|];
      [|discriminate].
    destruct (files w' !! temp_key w); [|discriminate].
    intros [= <-]. apply lookup_delete_eq.
  - intros status w' Hsp [c Hc].
    rewrite (main_run spawn w src Hsrc Hdir), Hsp, Hc. eauto.
Qed.

Lemma C9_end_to_end_witness :
  (exists (w1 : World) (out : string),
     patch_script demo_world = (Ok tt, w1) /\
     files w1 !! temp_key demo_world = Some out /\
     read_lines out !! 1
     = Some ("BUILD_ARCHS_DEVICE=" +:+ dq +:+ "arm64e arm64" +:+ dq +:+ nl) /\
     read_lines out !! 2
     = Some ("BUILD_ARCHS_SIMULATOR=" +:+ dq +:+ "x86_64" +:+ dq +:+ nl) /\
     length (read_lines out) = length (read_lines demo_script)) /\
  (forall wf : World,
     main (spawn_status 0) demo_world = (Ok tt, wf) ->
     files wf !! temp_key demo_world = None) /\
  (forall (status : Z) (w' : World),
     spawn_status 0 sh_args (shell_world demo_world demo_script)
     = Some (status, w') ->
     is_Some (files w' !! temp_key demo_world) ->
     exists wf : World, main (spawn_status 0) demo_world = (Ok tt, wf)).
Proof.
  apply (C9_end_to_end (spawn_status 0) demo_world demo_script 1 2).
  - reflexivity.
  - vm_compute. reflexivity.
  - reflexivity.
  - reflexivity.
Defined.

(** C2 as the specification states it fails on the script: with a child that
    exits with status 1 the run does not raise SubprocessError. *)
Lemma C2_nonzero_exit_raises_counterexample :
  ~ (forall (status : Z) (w' : World),
       spawn_status 1 sh_args (shell_world demo_world demo_script)
       = Some (status, w') ->
       status <> 0%Z ->
       (exists args : list string,
          (main (spawn_status 1) demo_world).1 = Raise (SubprocessError args)) /\
       files (main (spawn_status 1) demo_world).2 !! temp_key demo_world = None).
Proof.
  intros H.
  destruct (H 1%Z _ eq_refl) as [[args Hargs] _]; [discriminate|].
  vm_compute in Hargs. discriminate Hargs.
Qed.

(** C2, amended. When the patched script exits with a non-zero status, the
    run does not fail with SubprocessError: [call] returns the status and the
    script drops it.  The temporary file does not exist afterwards, and the
    run completes normally whenever the child left the file in place for
    [os.remove]. *)
Theorem C2_nonzero_exit_ignored
    (spawn : Spawn) (w : World) (src : string) (status : Z) (w' : World) :
  files w !! source_key w = Some src ->
  work_dir w ∈ dirs w ->
  spawn sh_args (shell_world w src) = Some (status, w') ->
  status <> 0%Z ->
  (forall args : list string, (main spawn w).1 <> Raise (SubprocessError args)) /\
  files (main spawn w).2 !! temp_key w = None /\
  (is_Some (files w' !! temp_key w) ->
   main spawn w
   = (Ok tt, set_files (delete (temp_key w) (files w')) (set_cwd (work_dir w) w'))).
Proof.
  intros Hsrc Hdir Hsp _.
  rewrite (main_run spawn w src Hsrc Hdir), Hsp.
  destruct (files w' !! temp_key w) as [c|] eqn:Hc.
  - repeat split; [discriminate | apply lookup_delete_eq].
  - repeat split; [discriminate | exact Hc |].
    intros [c K]. discriminate K.
Qed.

Lemma C2_nonzero_exit_ignored_witness :
  (forall args : list string,
     (main (spawn_status 1) demo_world).1 <> Raise (SubprocessError args)) /\
  files (main (spawn_status 1) demo_world).2 !! temp_key demo_world = None /\
  (is_Some (files (shell_world demo_world demo_script) !! temp_key demo_world) ->
   main (spawn_status 1) demo_world
   = (Ok tt,
      set_files (delete (temp_key demo_world)
                        (files (shell_world demo_world demo_script)))
                (set_cwd (work_dir demo_world)
                         (shell_world demo_world demo_script)))).
Proof.
  apply (C2_nonzero_exit_ignored (spawn_status 1) demo_world demo_script 1%Z
           (shell_world demo_world demo_script)).
  - reflexivity.
  - vm_compute. reflexivity.
  - reflexivity.
  - discriminate.
Defined.

(** * Further properties of the script *)

(** ** The line rewrite *)

(** X1. One call of [check_line_from_parts] is idempotent for every flag name
    and value: checking its own result again changes nothing. *)
Theorem X1_check_line_idempotent (left right line : string) :
  check_line_from_parts left right (check_line_from_parts left right line)
  = check_line_from_parts left right line.
Proof.
  destruct (startswith line left) eqn:E.
  - rewrite (check_line_match _ _ _ E).
    apply check_line_match, assignment_startswith.
  - now rewrite !(check_line_nomatch _ _ _ E).
Qed.

Lemma startswith_short (line left : string) :
  String.length line < String.length left -> startswith line left = false.
Proof.
  revert line. induction left as [|c left IH]; intros line H; simpl in *; [lia|].
  destruct line as [|d line]; [reflexivity|].
  destruct (Ascii.eqb d c); [|reflexivity].
  apply IH. simpl in H. lia.
Qed.

(** X2. A line shorter than the flag name, the empty line included, is
    returned unchanged. *)
Theorem X2_short_line_unchanged (left right line : string) :
  String.length line < String.length left ->
  check_line_from_parts left right line = line.
Proof. intros H. apply check_line_nomatch, startswith_short, H. Qed.

Lemma X2_short_line_unchanged_witness :
  check_line_from_parts arch_flag_name_device valid_archs_device "BUILD_ARCHS"
  = "BUILD_ARCHS".
Proof.
  apply (X2_short_line_unchanged arch_flag_name_device valid_archs_device).
  vm_compute. lia.
Defined.

(** X3. The loop never touches a line whose first character is not [B]:
    an indented, commented-out or exported assignment stays as it is; so
    does the empty line. *)
Theorem X3_first_character_decides (c : ascii) (rest : string) :
  c <> "B"%char ->
  rewrite_line (String c rest) = String c rest /\
  rewrite_line EmptyString = EmptyString.
Proof.
  intros Hc. split; [|reflexivity].
  apply Ascii.eqb_neq in Hc.
  apply rewrite_line_other; simpl; now rewrite Hc.
Qed.

Lemma X3_first_character_decides_witness :
  rewrite_line (String "#"%char " BUILD_ARCHS_DEVICE=arm64")
  = String "#"%char " BUILD_ARCHS_DEVICE=arm64" /\
  rewrite_line EmptyString = EmptyString.
Proof. apply (X3_first_character_decides "#"%char). discriminate. Defined.



(** X5. The loop rewrites each line on its own and keeps the order: the
    result for two scripts put one after the other is the two results put one
    after the other. *)
Theorem X5_patch_lines_app (lines1 lines2 : list string) :
  patch_lines (lines1 ++ lines2) = patch_lines lines1 ++ patch_lines lines2.
Proof. rewrite !patch_lines_map. apply map_app. Qed.

(** ** The text written *)

Lemma map_rewrite_no_flags (ls : list string) :
  no_flag_lines ls = true -> map rewrite_line ls = ls.
Proof.
  unfold no_flag_lines. induction ls as [|l ls IH]; [reflexivity|]. simpl.
  intros [[Hd Hs]%andb_true_iff Hls]%andb_true_iff.
  apply negb_true_iff in Hd, Hs.
  now rewrite (rewrite_line_other _ Hd Hs), (IH Hls).
Qed.

(** X6. A script in which no line starts with a flag name is copied: the
    text written is the text read (after text-mode newline translation), and
    it is the source byte for byte when the source has no carriage
    return. *)
Theorem X6_plain_script_copied (src : string) :
  no_flag_lines (read_lines src) = true ->
  patched_text src = universal_newlines src /\
  (contains src CR = false -> patched_text src = src).
Proof.
  intros H.
  assert (patched_text src = universal_newlines src) as E.
  { unfold patched_text. rewrite patch_lines_map, (map_rewrite_no_flags _ H).
    apply concat_file_lines. }
  split; [exact E|]. intros Hcr. now rewrite E, universal_newlines_id.
Qed.

Lemma X6_plain_script_copied_witness :
  patched_text plain_script = universal_newlines plain_script /\
  (contains plain_script CR = false -> patched_text plain_script = plain_script).
Proof. apply (X6_plain_script_copied plain_script). reflexivity. Defined.

(** X7. What [writelines] sends to the file reads back as the very list
    [new_lines]: for lines of the shape that iterating a text file yields,
    the rewritten lines, concatenated and split again, are the rewritten
    lines. *)
Theorem X7_written_lines_read_back (lines : list string) :
  lines_ok lines = true ->
  no_cr lines = true ->
  read_lines (concat_lines (patch_lines lines)) = patch_lines lines.
Proof.
  intros Hok Hcr. rewrite patch_lines_map.
  pose proof (map_rewrite_no_cr _ Hcr) as H.
  rewrite no_cr_concat in H. apply negb_true_iff in H.
  unfold read_lines. rewrite (universal_newlines_id _ H).
  now apply file_lines_concat, map_rewrite_ok.
Qed.

Lemma X7_written_lines_read_back_witness :
  read_lines (concat_lines (patch_lines
    ["BUILD_ARCHS_DEVICE=armv7" +:+ nl; nl; "BUILD_ARCHS_SIMULATOR"]))
  = patch_lines ["BUILD_ARCHS_DEVICE=armv7" +:+ nl; nl; "BUILD_ARCHS_SIMULATOR"].
Proof. apply X7_written_lines_read_back; reflexivity. Defined.

(** ** The run *)

Lemma main_missing (spawn : Spawn) (w : World) :
  files w !! source_key w = None ->
  main spawn w = (Raise (FileAccessError build_file), w).
Proof. intros H. unfold main. apply bind_raise. now apply patch_script_missing. Qed.

Lemma main_unwritable (spawn : Spawn) (w : World) (src : string) :
  files w !! source_key w = Some src ->
  work_dir w ∉ dirs w ->
  main spawn w = (Raise (FileAccessError build_temp_file), w).
Proof.
  intros Hsrc Hdir. unfold main. apply bind_raise.
  now apply (patch_script_unwritable w src).
Qed.



(** X9. When the shell cannot be started, the run ends with SubprocessError
    and without cleanup: the temporary file stays behind with the patched
    text and the working directory stays changed. *)
Theorem X9_spawn_failure_leaves_temp (spawn : Spawn) (w : World) (src : string) :
  files w !! source_key w = Some src ->
  work_dir w ∈ dirs w ->
  spawn sh_args (shell_world w src) = None ->
  exists wf : World,
    main spawn w = (Raise (SubprocessError sh_args), wf) /\
    files wf !! temp_key w = Some (patched_text src) /\
    cwd wf = work_dir w.
Proof.
  intros Hsrc Hdir Hsp. exists (shell_world w src).
  rewrite (main_run spawn w src Hsrc Hdir), Hsp.
  repeat split. apply lookup_insert_eq.
Qed.

Lemma X9_spawn_failure_leaves_temp_witness :
  exists wf : World,
    main spawn_fails demo_world = (Raise (SubprocessError sh_args), wf) /\
    files wf !! temp_key demo_world = Some (patched_text demo_script) /\
    cwd wf = work_dir demo_world.
Proof.
  apply (X9_spawn_failure_leaves_temp spawn_fails demo_world demo_script).
  - reflexivity.
  - vm_compute. reflexivity.
  - reflexivity.
Defined.

(** X10. The shell is started on the file that was just written: in the
    world the child starts in, the base name given to [sh], resolved against
    the new working directory, is the temporary file with the patched text,
    whatever directory the script itself was started in; and the run depends
    on the way programs are run only through this one call. *)
Theorem X10_shell_runs_patched_file (w : World) (src : string) :
  files w !! source_key w = Some src ->
  work_dir w ∈ dirs w ->
  files (shell_world w src)
    !! resolve (shell_world w src) (os.path.basename build_temp_file)
  = Some (patched_text src) /\
  (forall spawn1 spawn2 : Spawn,
     spawn1 sh_args (shell_world w src) = spawn2 sh_args (shell_world w src) ->
     main spawn1 w = main spawn2 w).
Proof.
  intros Hsrc Hdir. split.
  - unfold shell_world. rewrite resolve_after_chdir.
    apply lookup_insert_eq.
  - intros spawn1 spawn2 H.
    now rewrite !(main_run _ w src Hsrc Hdir), H.
Qed.

Lemma X10_shell_runs_patched_file_witness :
  files (shell_world demo_world demo_script)
    !! resolve (shell_world demo_world demo_script)
         (os.path.basename build_temp_file)
  = Some (patched_text demo_script) /\
  (forall spawn1 spawn2 : Spawn,
     spawn1 sh_args (shell_world demo_world demo_script)
     = spawn2 sh_args (shell_world demo_world demo_script) ->
     main spawn1 demo_world = main spawn2 demo_world).
Proof.
  apply (X10_shell_runs_patched_file demo_world demo_script).
  - reflexivity.
  - vm_compute. reflexivity.
Defined.

(** X11. The script itself writes and removes the temporary file only: a
    file under any other path that the child process leaves alone has, after
    the run, the content it had before, however the run ends. *)
Theorem X11_other_files_untouched (spawn : Spawn) (w : World) (k : string) :
  k <> temp_key w ->
  (forall (args : list string) (wi : World) (status : Z) (w' : World),
     spawn args wi = Some (status, w') -> files w' !! k = files wi !! k) ->
  files (main spawn w).2 !! k = files w !! k.
Proof.
  intros Hk Hsp.
  destruct (files w !! source_key w) as [src|] eqn:Hsrc;
    [|now rewrite (main_missing spawn w Hsrc)].
  destruct (decide (work_dir w ∈ dirs w)) as [Hdir|Hdir];
    [|now rewrite (main_unwritable spawn w src Hsrc Hdir)].
  assert (files (shell_world w src) !! k = files w !! k) as Hshell
    by (apply lookup_insert_ne; congruence).
  rewrite (main_run spawn w src Hsrc Hdir).
  destruct (spawn sh_args (shell_world w src)) as [[status w']|] eqn:E;
    [|exact Hshell].
  specialize (Hsp _ _ _ _ E).
  destruct (files w' !! temp_key w); simpl.
  - rewrite lookup_delete_ne by congruence. congruence.
  - congruence.
Qed.

Lemma X11_other_files_untouched_witness :
  files (main (spawn_status 3) demo_world).2 !! source_key demo_world
  = files demo_world !! source_key demo_world.
Proof.
  apply (X11_other_files_untouched (spawn_status 3) demo_world).
  - discriminate.
  - intros args wi status w' [= _ <-]. reflexivity.
Defined.

(** X12. Writing the temporary file and removing it cancel: when there was
    no file under the temporary path before and the child process leaves
    files and directories as they are, the run completes and the world after
    it differs from the world before it in the working directory only. *)
Theorem X12_run_restores_files
    (spawn : Spawn) (w : World) (src : string) (status : Z) (w' : World) :
  files w !! source_key w = Some src ->
  work_dir w ∈ dirs w ->
  files w !! temp_key w = None ->
  spawn sh_args (shell_world w src) = Some (status, w') ->
  files w' = files (shell_world w src) ->
  dirs w' = dirs (shell_world w src) ->
  main spawn w = (Ok tt, set_cwd (work_dir w) w).
Proof.
  intros Hsrc Hdir Htemp Hsp Hfiles Hdirs.
  rewrite (main_run spawn w src Hsrc Hdir), Hsp, Hfiles.
  unfold shell_world at 1. cbn [files set_cwd set_files].
  rewrite lookup_insert_eq.
  unfold set_files, set_cwd. cbn [files dirs cwd]. rewrite Hdirs.
  unfold shell_world. cbn [files dirs set_cwd set_files].
  now rewrite (delete_insert_id _ _ _ Htemp).
Qed.

Lemma X12_run_restores_files_witness :
  main (spawn_status 0) demo_world
  = (Ok tt, set_cwd (work_dir demo_world) demo_world).
Proof.
  apply (X12_run_restores_files (spawn_status 0) demo_world demo_script 0%Z
           (shell_world demo_world demo_script)).
  - reflexivity.
  - vm_compute. reflexivity.
  - reflexivity.
  - reflexivity.
  - reflexivity.
  - reflexivity.
Defined.

(** X13. The exit status of the child process has no influence on the run:
    sending every status through any function (to zero, say) gives the same
    result and the same final world. *)
Theorem X13_exit_status_unused (f : Z -> Z) (spawn : Spawn) (w : World) :
  main (map_status f spawn) w = main spawn w.
Proof.
  unfold main, mbind, M_bind.
  destruct (patch_script w) as [[[]|e] w1]; [|reflexivity].
  unfold build, mbind, M_bind.
  destruct (os.chdir (os.path.dirname build_temp_file) w1) as [[[]|e] w2];
    [|reflexivity].
  unfold call, map_status.
  now destruct (spawn _ w2) as [[status w']|].
Qed.

(** X14. Opening with mode [w] overwrites: a file left under the temporary
    path by an earlier run does not show in the result of patching, which is
    the same world as without it. *)
Theorem X14_stale_temp_overwritten (w : World) (src old : string) :
  files w !! source_key w = Some src ->
  work_dir w ∈ dirs w ->
  patch_script (set_files (<[temp_key w := old]> (files w)) w) = patch_script w.
Proof.
  intros Hsrc Hdir.
  rewrite (patch_script_ok w src Hsrc Hdir).
  set (w0 := set_files (<[temp_key w := old]> (files w)) w).
  assert (files w0 !! source_key w0 = Some src) as Hsrc0.
  { change (<[temp_key w := old]> (files w) !! source_key w = Some src).
    rewrite lookup_insert_ne by (apply not_eq_sym, source_key_ne_temp_key).
    exact Hsrc. }
  rewrite (patch_script_ok w0 src Hsrc0 Hdir).
  unfold w0, set_files. cbn [cwd files dirs].
  change (temp_key {| cwd := cwd w; files := <[temp_key w := old]> (files w);
                      dirs := dirs w |}) with (temp_key w).
  now rewrite insert_insert_eq.
Qed.

Lemma X14_stale_temp_overwritten_witness :
  patch_script
    (set_files (<[temp_key demo_world := "exit 1"]> (files demo_world)) demo_world)
  = patch_script demo_world.
Proof.
  apply (X14_stale_temp_overwritten demo_world demo_script "exit 1").
  - reflexivity.
  - vm_compute. reflexivity.
Defined.

(** X15. When the child process exits and the temporary file is gone by
    then, [os.remove] raises for the base name: the run ends with
    FileAccessError although the build may have succeeded, and the world is
    the one the child left, seen from the script's directory. *)
Theorem X15_remove_fails_when_child_removed
    (spawn : Spawn) (w : World) (src : string) (status : Z) (w' : World) :
  files w !! source_key w = Some src ->
  work_dir w ∈ dirs w ->
  spawn sh_args (shell_world w src) = Some (status, w') ->
  files w' !! temp_key w = None ->
  main spawn w
  = (Raise (FileAccessError (os.path.basename build_temp_file)),
     set_cwd (work_dir w) w').
Proof.
  intros Hsrc Hdir Hsp Hgone.
  now rewrite (main_run spawn w src Hsrc Hdir), Hsp, Hgone.
Qed.

Lemma X15_remove_fails_when_child_removed_witness :
  main spawn_wipes demo_world
  = (Raise (FileAccessError (os.path.basename build_temp_file)),
     set_cwd (work_dir demo_world)
       (set_files ∅ (shell_world demo_world demo_script))).
Proof.
  apply (X15_remove_fails_when_child_removed spawn_wipes demo_world demo_script 0%Z).
  - reflexivity.
  - vm_compute. reflexivity.
  - reflexivity.
  - reflexivity.
Defined.

(** X16. The working directory is not restored: once patching succeeded the
    run ends, however it ends, in the directory of the temporary file, and
    from there the relative path of the source names another file than it
    did at the start. *)
Theorem X16_working_directory_not_restored
    (spawn : Spawn) (w : World) (src : string) :
  files w !! source_key w = Some src ->
  work_dir w ∈ dirs w ->
  cwd (main spawn w).2 = work_dir w /\
  source_key (main spawn w).2 <> source_key w.
Proof.
  intros Hsrc Hdir.
  assert (cwd (main spawn w).2 = work_dir w) as Hcwd.
  { rewrite (main_run spawn w src Hsrc Hdir).
    destruct (spawn sh_args (shell_world w src)) as [[status w']|];
      [|reflexivity].
    now destruct (files w' !! temp_key w). }
  split; [exact Hcwd|].
  unfold source_key, resolve. rewrite Hcwd. unfold work_dir, resolve.
  rewrite join_join by (reflexivity || discriminate).
  rewrite !join_relative by reflexivity.
  intros H. apply app_inv_head_s, app_inv_head_s in H. discriminate H.
Qed.

Lemma X16_working_directory_not_restored_witness :
  cwd (main (spawn_status 0) demo_world).2 = work_dir demo_world /\
  source_key (main (spawn_status 0) demo_world).2 <> source_key demo_world.
Proof.
  apply (X16_working_directory_not_restored (spawn_status 0) demo_world demo_script).
  - reflexivity.
  - vm_compute. reflexivity.
Defined.
